(** * The packaging script of the Brik Refunds Service

    A shallow embedding of [src/backend/setup.py]: the two helpers [read]
    and [get_requirements], the top-level assignments [README] and
    [REQUIREMENTS], and the keyword arguments handed to [setup].

    Python values are modelled as the script has them: a [str] is a
    sequence of Unicode code points, the file system is a finite map from
    paths to nodes, and a statement that can raise returns a [result]. *)

From Stdlib Require Import NArith String Ascii List Bool Lia.
From stdpp Require Import base option list gmap.
Import ListNotations.

Local Open Scope N_scope.

(** ** Python strings *)

Module Str.

(** A code point, and a [str] as the sequence of its code points. *)
Abbreviation char := N.
Abbreviation str := (list N).

(** A literal of the script, written as a Rocq string. *)
Definition py (s : string) : str := map N_of_ascii (list_ascii_of_string s).

Definition LF : char := 10.
Definition CR : char := 13.
Definition HASH : char := 35.
Definition SLASH : char := 47.

(** [ch.isspace()], the test [str.strip()] applies to each end: the ten
    ASCII characters of CPython's whitespace table and the Unicode
    characters with the White_Space property. *)
Definition isspace (c : char) : bool :=
  ((9 <=? c) && (c <=? 13)) || ((28 <=? c) && (c <=? 32))
  || (c =? 133) || (c =? 160) || (c =? 5760)
  || ((8192 <=? c) && (c <=? 8202))
  || (c =? 8232) || (c =? 8233) || (c =? 8239) || (c =? 8287)
  || (c =? 12288).

(** [s.lstrip()] *)
Fixpoint lstrip (s : str) : str :=
  match s with
  | [] => []
  | c :: r => if isspace c then lstrip r else s
  end.

(** [s.rstrip()] *)
Fixpoint rstrip (s : str) : str :=
  match s with
  | [] => []
  | c :: r =>
      match rstrip r with
      | [] => if isspace c then [] else [c]
      | r' => c :: r'
      end
  end.

(** [s.strip()]: whitespace is dropped from the left end, then from the
    right end of what is left. *)
Definition strip (s : str) : str := rstrip (lstrip s).

(** [s.startswith(c)] for a one-character prefix. *)
Definition startswith (c : char) (s : str) : bool :=
  match s with
  | [] => false
  | d :: _ => d =? c
  end.

(** [s.endswith(c)] for a one-character suffix. *)
Definition endswith (c : char) (s : str) : bool :=
  match last s with
  | None => false
  | Some d => d =? c
  end.

(** Truth value of a [str]: the empty string is false. *)
Definition truthy (s : str) : bool :=
  match s with
  | [] => false
  | _ :: _ => true
  end.

End Str.
Import Str.

(** ** Text files *)

Module TextIO.

(** [io.open] without a [newline] argument reads in universal-newlines
    mode: each of CR LF, CR and LF reaches the caller as one LF. *)
Fixpoint universal_newlines (s : str) : str :=
  match s with
  | [] => []
  | c :: r =>
      if c =? CR then
        LF :: match r with
              | [] => []
              | d :: r' => if d =? LF then universal_newlines r'
                           else universal_newlines r
              end
      else c :: universal_newlines r
  end.

(** Iterating over a text file: the text is cut after each LF, the LF
    stays with its line, and a last line without LF is a line too. *)
Fixpoint readlines (s : str) : list str :=
  match s with
  | [] => []
  | c :: r =>
      if c =? LF then [c] :: readlines r
      else match readlines r with
           | [] => [[c]]
           | l :: ls => (c :: l) :: ls
           end
  end.

End TextIO.
Import TextIO.

(** ** Exceptions *)

Module Exc.

(** The exception classes the script can meet, with their place in
    Python's hierarchy. *)
Inductive exc : Type :=
  | OSError
  | FileNotFoundError
  | IsADirectoryError
  | PermissionError
  | ValueError
  | UnicodeDecodeError.

(** [IOError] has been another name of [OSError] since Python 3.3. *)
Definition IOError : exc := OSError.

#[global] Instance exc_eq_dec : EqDecision exc.
Proof. solve_decision. Defined.

(** The direct base class, where it is one of the classes above. *)
Definition base (c : exc) : option exc :=
  match c with
  | FileNotFoundError | IsADirectoryError | PermissionError => Some OSError
  | UnicodeDecodeError => Some ValueError
  | OSError | ValueError => None
  end.

Definition issubclass (c d : exc) : bool :=
  bool_decide (c = d) || bool_decide (base c = Some d).

(** Does an [except (d1, d2, ...)] clause catch an exception of class
    [c]? *)
Definition caught (c : exc) (clause : list exc) : bool :=
  existsb (issubclass c) clause.

(** The outcome of a statement: a value, or a raised exception. *)
Inductive result (A : Type) : Type :=
  | Ok (a : A)
  | Raise (c : exc).
Arguments Ok {A} a.
Arguments Raise {A} c.

#[global] Instance result_ret : MRet result := @Ok.
#[global] Instance result_bind : MBind result := fun A B k m =>
  match m with
  | Ok a => k a
  | Raise c => Raise c
  end.

(** [try: body  except clause: handler] *)
Definition try_except {A} (body : result A) (clause : list exc)
    (handler : result A) : result A :=
  match body with
  | Ok a => Ok a
  | Raise c => if caught c clause then handler else Raise c
  end.

End Exc.
Import Exc.

(** ** The file system and [os.path] *)

Module OS.

(** What a path of the file system can name. *)
Inductive node : Type :=
  | Dir                     (* a directory *)
  | Locked                  (* a file the process may not open *)
  | Binary                  (* a readable file that is not valid UTF-8 *)
  | File (content : str).   (* a readable file and its decoded text *)

(** The surroundings of one run of the script. [script_dir] is the value
    of [os.path.abspath(os.path.dirname(__file__))], [found_packages]
    what [find_packages(exclude=['tests'])] returns. *)
Record env : Type := {
  cwd : str;
  script_dir : str;
  fs : gmap str node;
  found_packages : list str
}.

(** [os.path.join(a, b)] *)
Definition os_path_join (a b : str) : str :=
  if startswith SLASH b then b
  else if negb (truthy a) || endswith SLASH a then a ++ b
  else a ++ SLASH :: b.

(** [os.path.isabs(p)] *)
Definition os_path_isabs (p : str) : bool := startswith SLASH p.

(** The file system resolves a relative path from the current working
    directory. *)
Definition resolve (e : env) (p : str) : str := os_path_join (cwd e) p.

(** What a path names in a run, if anything. *)
Definition node_at (e : env) (p : str) : option node := fs e !! resolve e p.

(** [os.path.exists(p)] *)
Definition os_path_exists (e : env) (p : str) : bool :=
  bool_decide (is_Some (node_at e p)).

(** An open text file: its decoded characters, or bytes at which the
    UTF-8 decoder will fail. *)
Inductive stream : Type :=
  | Chars (s : str)
  | Undecodable.

(** [io.open(p, encoding='utf-8')] *)
Definition io_open (e : env) (p : str) : result stream :=
  match node_at e p with
  | None => Raise FileNotFoundError
  | Some Dir => Raise IsADirectoryError
  | Some Locked => Raise PermissionError
  | Some Binary => Ok Undecodable
  | Some (File s) => Ok (Chars s)
  end.

(** [f.read()] *)
Definition f_read (f : stream) : result str :=
  match f with
  | Chars s => Ok (universal_newlines s)
  | Undecodable => Raise UnicodeDecodeError
  end.

(** [for line in f], as the list of the lines it yields. *)
Definition f_lines (f : stream) : result (list str) :=
  match f with
  | Chars s => Ok (readlines (universal_newlines s))
  | Undecodable => Raise UnicodeDecodeError
  end.

End OS.
Import OS.

(** ** setup.py *)

Module Setup.

(** [read(filename)] *)
Definition read (e : env) (filename : str) : result str :=
  let here := script_dir e in
  f ← io_open e (os_path_join here filename);
  f_read f.

(** The list returned by the [except] branch of [get_requirements]. *)
Definition fallback_requirements : list str :=
  [ py "flask>=2.3.0";
    py "sqlalchemy>=2.0.0";
    py "marshmallow>=3.20.0";
    py "celery>=5.3.0";
    py "pyjwt>=2.8.0";
    py "pymongo>=6.0.0";
    py "redis>=7.0.0";
    py "boto3>=1.28.0";
    py "requests>=2.31.0";
    py "python-dotenv>=1.0.0";
    py "gunicorn>=21.2.0";
    py "pydantic>=2.4.0";
    py "cryptography>=41.0.0";
    py "jinja2>=3.1.0" ].

(** One turn of the loop of [get_requirements]. *)
Definition loop_body (requirements : list str) (line : str) : list str :=
  let line := strip line in
  if truthy line && negb (startswith HASH line)
  then requirements ++ [line]
  else requirements.

(** The loop run over the lines a file yields. *)
Definition collect (lines : list str) (requirements : list str) : list str :=
  fold_left loop_body lines requirements.

(** [get_requirements()] *)
Definition get_requirements (e : env) : result (list str) :=
  let requirements := [] in
  let here := script_dir e in
  try_except
    (f ← io_open e (os_path_join here (py "requirements.txt"));
     lines ← f_lines f;
     let requirements := collect lines requirements in
     Ok requirements)
    [IOError; FileNotFoundError]
    (Ok fallback_requirements).

(** The keyword arguments of the call of [setup]. *)
Record setup_kwargs : Type := {
  name : str;
  version : str;
  description : str;
  long_description : str;
  packages : list str;
  python_requires : str;
  install_requires : list str;
  extras_require : gmap str (list str);
  entry_points : gmap str (list str);
  classifiers : list str
}.

(** [README = read('README.md') if os.path.exists('README.md') else ''] *)
Definition README (e : env) : result str :=
  if os_path_exists e (py "README.md") then read e (py "README.md")
  else Ok (py "").

(** [REQUIREMENTS = get_requirements()] *)
Definition REQUIREMENTS (e : env) : result (list str) := get_requirements e.

(** The whole script: the two assignments, then the call of [setup]. *)
Definition setup_py (e : env) : result setup_kwargs :=
  README ← README e;
  REQUIREMENTS ← REQUIREMENTS e;
  Ok {|
    name := py "brik-refunds-service";
    version := py "0.1.0";
    description := py "Comprehensive refund processing and management service for the Brik platform";
    long_description := README;
    packages := found_packages e;
    python_requires := py ">=3.11";
    install_requires := REQUIREMENTS;
    extras_require :=
      {[ py "dev" :=
           [ py "pytest>=7.4.0";
             py "pytest-cov>=4.1.0";
             py "pytest-mock>=3.11.0";
             py "black>=23.7.0";
             py "flake8>=6.1.0";
             py "isort>=5.12.0";
             py "mypy>=1.5.0" ] ]};
    entry_points :=
      {[ py "console_scripts" :=
           [ py "refunds-api=backend.api.server:main";
             py "refunds-worker=backend.workers.processor:main" ] ]};
    classifiers :=
      [ py "Development Status :: 4 - Beta";
        py "Intended Audience :: Financial and Insurance Industry";
        py "Programming Language :: Python :: 3.11";
        py "Topic :: Office/Business :: Financial" ]
  |}.

End Setup.
Import Setup.

(** ** The specification's vocabulary *)

Module Spec.

(** The requirements file of a run: requirements.txt beside the script. *)
Definition requirements_file (e : env) : str :=
  os_path_join (script_dir e) (py "requirements.txt").

(** README.md beside the script, the file [read('README.md')] opens. *)
Definition readme_beside_script (e : env) : str :=
  os_path_join (script_dir e) (py "README.md").

(** The lines of a text: what stands between its line terminators (LF,
    CR LF or CR), terminators left out. *)
Fixpoint text_lines (s : str) : list str :=
  match s with
  | [] => [[]]
  | c :: r =>
      if c =? LF then [] :: text_lines r
      else if c =? CR then
        [] :: match r with
              | [] => [[]]
              | d :: r' => if d =? LF then text_lines r' else text_lines r
              end
      else match text_lines r with
           | [] => [[c]]
           | l :: ls => (c :: l) :: ls
           end
  end.

Definition non_empty (l : str) : bool := negb (bool_decide (l = [])).
Definition comment (l : str) : bool := startswith HASH l.

(** "The non-empty, non-comment lines of that file, in file order, with
    surrounding whitespace stripped": a line counts as empty or as a
    comment by what is left of it once the whitespace is stripped. *)
Definition spec_requirements (content : str) : list str :=
  List.filter (fun l => non_empty l && negb (comment l))
              (map strip (text_lines content)).

(** The same list, read the other way round: the lines that are not
    blank and whose first visible character is not the comment sign are
    chosen first, and stripped afterwards. *)
Definition blank (l : str) : bool := forallb isspace l.
Definition comment_line (l : str) : bool := startswith HASH (lstrip l).
Definition spec_requirements' (content : str) : list str :=
  map strip
      (List.filter (fun l => negb (blank l) && negb (comment_line l))
                   (text_lines content)).

(** A requirement as the list of [get_requirements] may hold it: not
    empty, no whitespace at either end, no comment sign in front. *)
Definition no_space_around (x : str) : Prop :=
  (∀ c, head x = Some c → isspace c = false) ∧
  (∀ c, last x = Some c → isspace c = false).
Definition requirement_like (x : str) : Prop :=
  x ≠ [] ∧ no_space_around x ∧ head x ≠ Some HASH.

(** Project names compare without regard to case: ASCII capitals are
    lowered. *)
Definition lower_char (c : char) : char :=
  if (65 <=? c) && (c <=? 90) then c + 32 else c.
Definition lower (s : str) : str := map lower_char s.

(** A requirement "project >= version". *)
Definition at_least (project version : string) : str :=
  lower (py project) ++ py ">=" ++ py version.

(** A console script in the syntax of entry points,
    "command=module:function". *)
Definition console_script (command module function : string) : str :=
  py command ++ py "=" ++ py module ++ py ":" ++ py function.

(** The fourteen runtime dependency floors the specification lists. *)
Definition runtime_floors : list str :=
  [ at_least "Flask" "2.3.0";
    at_least "SQLAlchemy" "2.0.0";
    at_least "Marshmallow" "3.20.0";
    at_least "Celery" "5.3.0";
    at_least "PyJWT" "2.8.0";
    at_least "PyMongo" "6.0.0";
    at_least "Redis" "7.0.0";
    at_least "Boto3" "1.28.0";
    at_least "Requests" "2.31.0";
    at_least "python-dotenv" "1.0.0";
    at_least "Gunicorn" "21.2.0";
    at_least "Pydantic" "2.4.0";
    at_least "cryptography" "41.0.0";
    at_least "Jinja2" "3.1.0" ].

End Spec.
Import Spec.

(** ** Sample runs *)

Module Samples.

(** Lines put together with LF, or with CR LF, after each. *)
Definition nl (ls : list str) : str := concat (map (fun l => l ++ [LF]) ls).
Definition crlf (ls : list str) : str := concat (map (fun l => l ++ [CR; LF]) ls).

(** A requirements file with a comment, an inline comment, a blank line
    and an indented entry. *)
Definition requirements_txt : str :=
  nl [ py "# runtime dependencies";
       py "flask>=2.3.0  # web framework";
       py "   ";
       py "  celery>=5.3.0" ].

(** The script run from its own directory, both files in place. *)
Definition at_home : env :=
  {| cwd := py "/proj";
     script_dir := py "/proj";
     fs := {[ py "/proj/requirements.txt" := File requirements_txt;
              py "/proj/README.md" := File (nl [py "# Refunds"; py "Service."]) ]};
     found_packages := [py "backend"] |}.

(** The script run from its own directory, which holds nothing else. *)
Definition bare : env :=
  {| cwd := py "/proj";
     script_dir := py "/proj";
     fs := ∅;
     found_packages := [] |}.

(** The script in /proj run from /work; a README.md in /work only. *)
Definition elsewhere : env :=
  {| cwd := py "/work";
     script_dir := py "/proj";
     fs := {[ py "/work/README.md" := File (py "Notes") ]};
     found_packages := [] |}.

(** The script run from its own directory; the README.md there may not
    be opened. *)
Definition locked_readme : env :=
  {| cwd := py "/proj";
     script_dir := py "/proj";
     fs := {[ py "/proj/README.md" := Locked ]};
     found_packages := [] |}.

(** The script run from its own directory; the README.md there has
    CR LF line ends. *)
Definition dos_readme : env :=
  {| cwd := py "/proj";
     script_dir := py "/proj";
     fs := {[ py "/proj/README.md" := File (crlf [py "Refunds"]) ]};
     found_packages := [] |}.

End Samples.
Import Samples.

(** ** Further vocabulary *)

Module More.

(** A string that holds no line terminator. *)
Definition one_line (x : str) : bool :=
  forallb (fun c => negb ((c =? LF) || (c =? CR))) x.

(** Whitespace other than a line terminator. *)
Definition padding (x : str) : bool :=
  forallb (fun c => isspace c && negb ((c =? LF) || (c =? CR))) x.

(** Lines put together with CR after each. *)
Definition cr (ls : list str) : str := concat (map (fun l => l ++ [CR]) ls).

(** The same script and the same files, the run started from directory
    [d]. *)
Definition run_from (d : str) (e : env) : env :=
  {| cwd := d;
     script_dir := script_dir e;
     fs := fs e;
     found_packages := found_packages e |}.

(** The script in /proj run from /work; a README.md beside the script
    only. *)
Definition beside_only : env :=
  {| cwd := py "/work";
     script_dir := py "/proj";
     fs := {[ py "/proj/README.md" := File (py "Refunds") ]};
     found_packages := [] |}.

(** Did a statement end without raising? *)
Definition returns {A} (r : result A) : bool :=
  match r with
  | Ok _ => true
  | Raise _ => false
  end.

(** requirements.txt beside the script, being the given text. *)
Definition requirements_are (e : env) (content : str) : Prop :=
  node_at e (requirements_file e) = Some (File content).

End More.
Import More.

(** ** Stripping, said without [strip] *)

Module Plain.

(** [x] is [line] without the whitespace around it: [line] is [x] between
    two runs of whitespace, and [x] has no whitespace at either end. *)
Definition stripped_of (line x : str) : Prop :=
  ∃ p q, line = p ++ x ++ q ∧
         forallb isspace p = true ∧ forallb isspace q = true ∧
         no_space_around x.

(** The first character of a line that is not whitespace. *)
Definition first_visible (l : str) : option char :=
  List.find (fun c => negb (isspace c)) l.

(** An entry to keep: not empty, and not begun by the comment sign. *)
Definition wanted (x : str) : bool :=
  negb (bool_decide (x = [])) && negb (bool_decide (head x = Some HASH)).

End Plain.
Import Plain.

(** * Properties *)

Local Close Scope N_scope.
Arguments isspace : simpl never.

(** ** Stripping *)

Section Strip.

Implicit Types (s l r : str) (c w : char).

Lemma rstrip_app_space s w : isspace w = true → rstrip (s ++ [w]) = rstrip s.
Proof.
  intros Hw. induction s as [|c s IH]; simpl.
  - now rewrite Hw.
  - now rewrite IH.
Qed.

Lemma strip_app_space s w : isspace w = true → strip (s ++ [w]) = strip s.
Proof.
  intros Hw. unfold strip. induction s as [|c s IH]; simpl.
  - now rewrite Hw.
  - destruct (isspace c); [exact IH|].
    apply (rstrip_app_space (c :: s) w Hw).
Qed.

Lemma lstrip_head s c r : lstrip s = c :: r → isspace c = false.
Proof.
  induction s as [|d s IH]; simpl; [discriminate|].
  destruct (isspace d) eqn:Hd; [exact IH|].
  intros [= <- _]. exact Hd.
Qed.

Lemma lstrip_nil s : lstrip s = [] ↔ forallb isspace s = true.
Proof.
  induction s as [|d s IH]; simpl; [tauto|].
  destruct (isspace d); simpl; [exact IH|].
  split; discriminate.
Qed.

Lemma rstrip_nil s : rstrip s = [] ↔ forallb isspace s = true.
Proof.
  induction s as [|d s IH]; simpl; [tauto|].
  destruct (rstrip s) as [|x r]; destruct (isspace d); simpl;
    split; try discriminate; try tauto.
  intros H. apply IH in H. discriminate.
Qed.

(** [rstrip] leaves the front of the string alone. *)
Lemma rstrip_head s : rstrip s ≠ [] → head (rstrip s) = head s.
Proof.
  destruct s as [|d s]; simpl; [tauto|].
  destruct (rstrip s); [destruct (isspace d)|]; simpl; tauto.
Qed.

Lemma rstrip_last s c : last (rstrip s) = Some c → isspace c = false.
Proof.
  induction s as [|d s IH]; simpl; [discriminate|].
  destruct (rstrip s) as [|x r] eqn:Hr.
  - destruct (isspace d) eqn:Hd; simpl; [discriminate|].
    intros [= <-]. exact Hd.
  - intros H. apply IH. exact H.
Qed.

Lemma strip_head s c : head (strip s) = Some c → isspace c = false.
Proof.
  unfold strip. intros H.
  assert (Hne : rstrip (lstrip s) ≠ []) by (intros E; rewrite E in H; discriminate).
  rewrite (rstrip_head _ Hne) in H.
  destruct (lstrip s) as [|d r] eqn:Hl; [discriminate|].
  injection H as ->. exact (lstrip_head _ _ _ Hl).
Qed.

Lemma strip_no_space_around s : no_space_around (strip s).
Proof.
  split; intros c.
  - apply strip_head.
  - apply rstrip_last.
Qed.

(** A line strips to nothing exactly when it is blank. *)
Lemma strip_truthy s : truthy (strip s) = negb (blank s).
Proof.
  unfold strip, blank.
  destruct (forallb isspace s) eqn:Hs.
  - apply lstrip_nil in Hs. now rewrite Hs.
  - destruct (rstrip (lstrip s)) as [|c r] eqn:Hr; [|reflexivity].
    apply rstrip_nil in Hr.
    destruct (lstrip s) as [|d r] eqn:Hl.
    + apply lstrip_nil in Hl. congruence.
    + apply lstrip_head in Hl. simpl in Hr. rewrite Hl in Hr. discriminate.
Qed.

(** The first character of a stripped line is the line's first visible
    character. *)
Lemma strip_startswith s c :
  truthy (strip s) = true → startswith c (strip s) = startswith c (lstrip s).
Proof.
  unfold strip. intros H.
  assert (Hne : rstrip (lstrip s) ≠ []) by (intros E; rewrite E in H; discriminate).
  apply rstrip_head in Hne. unfold startswith.
  destruct (rstrip (lstrip s)), (lstrip s); simpl in *; congruence.
Qed.

End Strip.

(** ** Lines *)

Section Lines.

Implicit Types (s l r : str) (c : char) (ls : list str).

(** The test of the loop, and the lines that pass it, stripped. *)
Local Abbreviation keep := (fun x : str => truthy x && negb (startswith HASH x)).
Local Abbreviation kept ls := (List.filter keep (map strip ls)).

Lemma collect_kept ls acc : collect ls acc = acc ++ kept ls.
Proof.
  unfold collect. revert acc.
  induction ls as [|l ls IH]; intros acc; simpl.
  - now rewrite app_nil_r.
  - rewrite IH. unfold loop_body.
    destruct (truthy (strip l) && negb (startswith HASH (strip l))); [|reflexivity].
    now rewrite <- app_assoc.
Qed.

Lemma collect_app ls1 ls2 : collect (ls1 ++ ls2) [] = collect ls1 [] ++ collect ls2 [].
Proof.
  rewrite !collect_kept. simpl. now rewrite map_app, List.filter_app.
Qed.

(** Reading one character: either a line ends here, or the character
    belongs to the current line. *)
Lemma line_step c r :
  (∃ r', length r' ≤ length r ∧
         text_lines (c :: r) = [] :: text_lines r' ∧
         universal_newlines (c :: r) = LF :: universal_newlines r')
  ∨ (c ≠ LF ∧
     text_lines (c :: r) = match text_lines r with
                           | [] => [[c]]
                           | l :: ls => (c :: l) :: ls
                           end ∧
     universal_newlines (c :: r) = c :: universal_newlines r).
Proof.
  destruct (c =? LF)%N eqn:Hlf.
  { apply N.eqb_eq in Hlf. subst c. left. exists r. auto. }
  destruct (c =? CR)%N eqn:Hcr.
  - apply N.eqb_eq in Hcr. subst c. left.
    destruct r as [|d r']; [exists []; auto|].
    destruct (d =? LF)%N eqn:Hd.
    + exists r'. simpl. rewrite Hd. auto with lia.
    + exists (d :: r'). simpl. rewrite !Hd. auto.
  - right. simpl. rewrite Hlf, Hcr. apply N.eqb_neq in Hlf. auto.
Qed.

(** How the lines the file yields stand to the lines of the text: the
    first one may carry its LF, and the rest keep the same entries. *)
Local Abbreviation related tl rl :=
  (∃ l ls, tl = l :: ls ∧
     ((rl = [] ∧ l = [] ∧ ls = []) ∨
      (∃ l' ls', rl = l' :: ls' ∧ (l' = l ∨ l' = l ++ [LF]) ∧
                 kept ls' = kept ls))).

Lemma related_kept (tl rl : list str) : related tl rl → kept rl = kept tl.
Proof.
  intros (l & ls & -> & [(-> & -> & ->) | (l' & ls' & -> & Hl & Hk)]).
  - reflexivity.
  - assert (Hs : strip l' = strip l).
    { destruct Hl as [->| ->]; [reflexivity|]. now apply strip_app_space. }
    simpl. now rewrite Hs, Hk.
Qed.

Lemma lines_related n s :
  length s ≤ n → related (text_lines s) (readlines (universal_newlines s)).
Proof.
  revert s. induction n as [|n IH]; intros [|c r] Hn; simpl in Hn; try lia.
  1, 2: exists [], []; auto.
  destruct (line_step c r) as [(r' & Hr' & -> & ->) | (Hc & -> & ->)].
  - exists [], (text_lines r'). split; [reflexivity|]. right.
    exists [LF], (readlines (universal_newlines r')).
    split; [reflexivity|]. split; [now right|].
    apply related_kept, IH. lia.
  - apply N.eqb_neq in Hc. simpl. rewrite Hc.
    destruct (IH r ltac:(lia))
      as (l & ls & -> & [(-> & -> & ->) | (l' & ls' & -> & Hl & Hk)]).
    + exists [c], []. split; [reflexivity|]. right.
      exists [c], []. auto.
    + exists (c :: l), ls. split; [reflexivity|]. right.
      exists (c :: l'), ls'. split; [reflexivity|]. split; [|exact Hk].
      destruct Hl as [->| ->]; auto.
Qed.

(** The loop finds the same entries in the lines the file yields as in
    the lines of the text. *)
Lemma kept_readlines s :
  kept (readlines (universal_newlines s)) = kept (text_lines s).
Proof. apply related_kept, (lines_related (length s)). lia. Qed.

Lemma filter_map_strip (p : str → bool) ls :
  List.filter p (map strip ls) = map strip (List.filter (fun l => p (strip l)) ls).
Proof.
  induction ls as [|l ls IH]; simpl; [reflexivity|].
  destruct (p (strip l)); simpl; now rewrite IH.
Qed.

Lemma keep_strip l :
  keep (strip l) = negb (blank l) && negb (comment_line l).
Proof.
  unfold comment_line. rewrite <- strip_truthy.
  destruct (truthy (strip l)) eqn:Ht; [|reflexivity].
  simpl. now rewrite strip_startswith.
Qed.

Lemma spec_requirements_kept content :
  spec_requirements content = kept (text_lines content).
Proof.
  unfold spec_requirements. apply List.filter_ext. intros l.
  unfold non_empty, comment. now destruct l.
Qed.

Lemma spec_requirements'_kept content :
  spec_requirements' content = kept (text_lines content).
Proof.
  unfold spec_requirements'. rewrite filter_map_strip. f_equal.
  apply List.filter_ext. intros l. now rewrite keep_strip.
Qed.

(** What the loop keeps is requirement-like. *)
Lemma keep_requirement_like l : keep (strip l) = true → requirement_like (strip l).
Proof.
  intros H. apply andb_true_iff in H as [Ht Hh].
  split; [|split].
  - intros E. rewrite E in Ht. discriminate.
  - apply strip_no_space_around.
  - intros E. destruct (strip l) as [|c r]; [discriminate|].
    simpl in E. injection E as ->. discriminate.
Qed.

Lemma kept_requirement_like ls : Forall requirement_like (kept ls).
Proof.
  induction ls as [|l ls IH]; simpl; [constructor|].
  destruct (truthy (strip l) && negb (startswith HASH (strip l))) eqn:H;
    [|exact IH].
  constructor; [|exact IH]. now apply keep_requirement_like.
Qed.

End Lines.

(** ** get_requirements *)

Section GetRequirements.

Implicit Types (e : env) (content line : str) (c : exc).

Lemma get_requirements_file e content :
  node_at e (requirements_file e) = Some (File content) →
  get_requirements e = Ok (collect (readlines (universal_newlines content)) []).
Proof.
  intros H. unfold get_requirements, io_open.
  fold (requirements_file e). now rewrite H.
Qed.

Lemma io_open_raises e p c : io_open e p = Raise c → issubclass c OSError = true.
Proof.
  unfold io_open.
  destruct (node_at e p) as [[| | |s]|]; intros [= <-]; reflexivity.
Qed.

Lemma fallback_requirement_like : Forall requirement_like fallback_requirements.
Proof.
  unfold fallback_requirements.
  repeat (apply Forall_cons_2;
          [match goal with
           | |- requirement_like ?x => exact (keep_requirement_like x eq_refl)
           end|]).
  constructor.
Qed.

End GetRequirements.

(** The result in terms of [strip]: strip every line of the text and keep
    those that are neither empty nor start with the comment sign, or keep
    the lines that are neither blank nor comments and strip them. *)
Lemma get_requirements_parses (e : env) (content : str) :
  node_at e (requirements_file e) = Some (File content) →
  get_requirements e = Ok (spec_requirements content) ∧
  get_requirements e = Ok (spec_requirements' content).
Proof.
  intros H. rewrite (get_requirements_file e content H).
  rewrite collect_kept, kept_readlines. simpl.
  now rewrite spec_requirements_kept, spec_requirements'_kept.
Qed.

Lemma get_requirements_parses_witness :
  get_requirements at_home = Ok (spec_requirements requirements_txt) ∧
  get_requirements at_home = Ok (spec_requirements' requirements_txt).
Proof. apply (get_requirements_parses at_home requirements_txt). reflexivity. Defined.

(** C2. When opening requirements.txt raises IOError or FileNotFoundError
    (the file is absent or cannot be opened), [get_requirements] raises
    nothing and returns the hardcoded list, which has fourteen entries. *)
Theorem get_requirements_falls_back (e : env) (c : exc) :
  io_open e (requirements_file e) = Raise c →
  issubclass c IOError = true ∨ issubclass c FileNotFoundError = true →
  get_requirements e = Ok fallback_requirements ∧
  length fallback_requirements = 14.
Proof.
  intros H Hc. split; [|reflexivity].
  unfold get_requirements. fold (requirements_file e). rewrite H.
  unfold try_except, caught. simpl.
  now destruct Hc as [-> | ->]; rewrite ?orb_true_r.
Qed.

Lemma get_requirements_falls_back_witness :
  get_requirements bare = Ok fallback_requirements ∧
  length fallback_requirements = 14.
Proof.
  apply (get_requirements_falls_back bare FileNotFoundError).
  - reflexivity.
  - right. reflexivity.
Defined.

(** The hardcoded list spells out the fourteen runtime dependency floors
    of the specification, in its order, and nothing else. *)
Lemma fallback_requirements_floors :
  fallback_requirements = runtime_floors ∧ length fallback_requirements = 14.
Proof. split; reflexivity. Qed.

(** C7. Whatever requirements.txt is, [get_requirements] either returns a
    list whose every entry is non-empty, has no whitespace at either end
    and does not begin with the comment sign, on the parsed path and on
    the fallback path alike, or it lets the decoder's error through. *)
Theorem get_requirements_requirement_like (e : env) :
  match get_requirements e with
  | Ok requirements => Forall requirement_like requirements
  | Raise c => c = UnicodeDecodeError
  end.
Proof.
  unfold get_requirements, io_open. fold (requirements_file e).
  destruct (node_at e (requirements_file e)) as [[| | |content]|]; simpl;
    try reflexivity; try apply fallback_requirement_like.
  rewrite collect_kept. apply kept_requirement_like.
Qed.

(** C8. A line is left out only when it strips to nothing or to something
    that begins with the comment sign: a line that strips to a first
    character other than the comment sign, followed by any text at all,
    contributes its stripped form whole, at its place. A comment sign
    further in, and the text after it, stay in the entry. *)
Theorem get_requirements_line (e : env) (content : str)
    (before after : list str) (line : str) (c : char) (rest : str) :
  node_at e (requirements_file e) = Some (File content) →
  readlines (universal_newlines content) = before ++ line :: after →
  strip line = c :: rest →
  c ≠ HASH →
  get_requirements e = Ok (collect before [] ++ (c :: rest) :: collect after []).
Proof.
  intros H Hl Hs Hc. rewrite (get_requirements_file e content H), Hl.
  rewrite collect_app. change (line :: after) with ([line] ++ after).
  rewrite collect_app. unfold collect at 2. simpl. unfold loop_body.
  rewrite Hs. simpl. apply N.eqb_neq in Hc. now rewrite Hc.
Qed.

Lemma get_requirements_line_witness :
  get_requirements at_home =
    Ok (collect [py "# runtime dependencies" ++ [LF]] [] ++
        py "flask>=2.3.0  # web framework" ::
        collect [py "   " ++ [LF]; py "  celery>=5.3.0" ++ [LF]] []).
Proof.
  apply (get_requirements_line at_home requirements_txt
           [py "# runtime dependencies" ++ [LF]]
           [py "   " ++ [LF]; py "  celery>=5.3.0" ++ [LF]]
           (py "flask>=2.3.0  # web framework" ++ [LF]));
    [reflexivity | reflexivity | reflexivity | discriminate].
Defined.

(** ** The script *)

Section Script.

Implicit Types (e : env) (p : str) (kw : setup_kwargs).

Lemma os_path_join_isabs a b :
  os_path_isabs a = true → os_path_isabs (os_path_join a b) = true.
Proof.
  unfold os_path_join, os_path_isabs. intros Ha.
  destruct (startswith SLASH b) eqn:Hb; [exact Hb|].
  destruct a as [|x a]; [discriminate|].
  now destruct (negb (truthy (x :: a)) || endswith SLASH (x :: a)).
Qed.

Lemma resolve_isabs e p : os_path_isabs p = true → resolve e p = p.
Proof. unfold resolve, os_path_join, os_path_isabs. now intros ->. Qed.

(** From its own directory, the script finds beside itself what the
    current working directory holds. *)
Lemma node_at_beside_script e name :
  script_dir e = cwd e → os_path_isabs (cwd e) = true →
  node_at e (os_path_join (script_dir e) name) = node_at e name.
Proof.
  intros -> Habs. unfold node_at.
  now rewrite (resolve_isabs e _ (os_path_join_isabs _ name Habs)).
Qed.

(** The call of [setup] is reached when neither assignment raises, and
    receives what they bound. *)
Lemma setup_py_inv e kw :
  setup_py e = Ok kw →
  README e = Ok (long_description kw) ∧
  get_requirements e = Ok (install_requires kw).
Proof.
  unfold setup_py, REQUIREMENTS.
  destruct (README e) as [readme|]; simpl; [|discriminate].
  destruct (get_requirements e) as [requirements|]; simpl; [|discriminate].
  now intros [= <-].
Qed.

Lemma setup_py_raises_README e c : README e = Raise c → setup_py e = Raise c.
Proof. unfold setup_py. now intros ->. Qed.

End Script.

(** C3, as the script has it. Run from the directory it lies in: when
    README.md there is a readable text file, the long description is the
    text of that file as text mode reads it, line ends CR LF and CR
    arriving as LF; when there is no README.md, the long description is the
    empty string. *)
Theorem README_beside_script (e : env) :
  script_dir e = cwd e →
  os_path_isabs (cwd e) = true →
  (∀ text, node_at e (py "README.md") = Some (File text) →
     README e = Ok (universal_newlines text) ∧
     ∀ kw, setup_py e = Ok kw → long_description kw = universal_newlines text)
  ∧ (node_at e (py "README.md") = None →
     README e = Ok [] ∧
     ∀ kw, setup_py e = Ok kw → long_description kw = []).
Proof.
  intros Hdir Habs.
  assert (Hlink : ∀ x, README e = Ok x →
            ∀ kw, setup_py e = Ok kw → long_description kw = x).
  { intros x Hx kw Hkw. apply setup_py_inv in Hkw as [Hr _]. congruence. }
  split.
  - intros text H.
    assert (Hr : README e = Ok (universal_newlines text)).
    { unfold README, os_path_exists, read, io_open.
      rewrite (node_at_beside_script e _ Hdir Habs), H.
      now rewrite bool_decide_eq_true_2. }
    split; [exact Hr | exact (Hlink _ Hr)].
  - intros H.
    assert (Hr : README e = Ok []).
    { unfold README, os_path_exists. rewrite H.
      rewrite bool_decide_eq_false_2; [reflexivity|]. now intros [x Hx]. }
    split; [exact Hr | exact (Hlink _ Hr)].
Qed.

Lemma README_beside_script_witness :
  (README at_home = Ok (nl [py "# Refunds"; py "Service."]) ∧
   ∃ kw, setup_py at_home = Ok kw ∧
         long_description kw = nl [py "# Refunds"; py "Service."])
  ∧ (README bare = Ok [] ∧
     ∃ kw, setup_py bare = Ok kw ∧ long_description kw = []).
Proof.
  pose proof (README_beside_script at_home eq_refl eq_refl) as [Hfile _].
  pose proof (README_beside_script bare eq_refl eq_refl) as [_ Hnone].
  specialize (Hfile (nl [py "# Refunds"; py "Service."]) eq_refl).
  specialize (Hnone eq_refl).
  destruct Hfile as [Hfile Hkw], Hnone as [Hnone Hkw'].
  split; (split; [assumption|]); eexists; (split; [reflexivity|]).
  - apply Hkw. reflexivity.
  - apply Hkw'. reflexivity.
Defined.

(** C3 as it was stated does not hold: a README.md that exists in the
    current working directory, but not beside the script, stops the script
    with an exception; so does one that may not be opened; and a README.md
    with CR LF line ends does not arrive character for character. *)
Lemma README_not_always_the_text :
  (node_at elsewhere (py "README.md") = Some (File (py "Notes")) ∧
   README elsewhere = Raise FileNotFoundError ∧
   setup_py elsewhere = Raise FileNotFoundError)
  ∧ (node_at locked_readme (py "README.md") = Some Locked ∧
     README locked_readme = Raise PermissionError ∧
     setup_py locked_readme = Raise PermissionError)
  ∧ (node_at dos_readme (py "README.md") = Some (File (crlf [py "Refunds"])) ∧
     README dos_readme = Ok (nl [py "Refunds"]) ∧
     nl [py "Refunds"] ≠ crlf [py "Refunds"]).
Proof. repeat split; try reflexivity. discriminate. Qed.

(** C4. In every run that reaches the call of [setup], the package name,
    the version and the console scripts are the same literals: the name
    brik-refunds-service, the version 0.1.0, and the two commands
    refunds-api and refunds-worker, each bound to the [main] function of
    its module. *)
Theorem setup_literals (e : env) (kw : setup_kwargs) :
  setup_py e = Ok kw →
  name kw = py "brik-refunds-service" ∧
  version kw = py "0.1.0" ∧
  entry_points kw =
    {[ py "console_scripts" :=
         [ console_script "refunds-api" "backend.api.server" "main";
           console_script "refunds-worker" "backend.workers.processor" "main" ] ]}.
Proof.
  unfold setup_py.
  destruct (README e); simpl; [|discriminate].
  destruct (REQUIREMENTS e); simpl; [|discriminate].
  intros [= <-]. repeat split; reflexivity.
Qed.

Lemma setup_literals_witness :
  ∃ kw, setup_py at_home = Ok kw ∧
        name kw = py "brik-refunds-service" ∧
        version kw = py "0.1.0" ∧
        entry_points kw =
          {[ py "console_scripts" :=
               [ console_script "refunds-api" "backend.api.server" "main";
                 console_script "refunds-worker" "backend.workers.processor" "main" ] ]}.
Proof.
  eexists. split; [reflexivity|].
  apply (setup_literals at_home). reflexivity.
Defined.

(** C6. In every run that reaches the call of [setup], the required
    Python version is the literal >=3.11. *)
Theorem setup_python_requires (e : env) (kw : setup_kwargs) :
  setup_py e = Ok kw → python_requires kw = py ">=3.11".
Proof.
  unfold setup_py.
  destruct (README e); simpl; [|discriminate].
  destruct (REQUIREMENTS e); simpl; [|discriminate].
  now intros [= <-].
Qed.

Lemma setup_python_requires_witness :
  ∃ kw, setup_py at_home = Ok kw ∧ python_requires kw = py ">=3.11".
Proof.
  eexists. split; [reflexivity|].
  apply (setup_python_requires at_home). reflexivity.
Defined.

(** C9. The guard looks for README.md from the current working directory,
    [read] opens README.md beside the script. When README.md exists in the
    current working directory and not beside the script, which needs the
    two directories to differ, the guard passes, the open fails, and the
    script stops with the exception: [README] is bound neither to a text
    nor to the empty string. *)
Theorem README_only_in_cwd (e : env) (n : node) :
  os_path_isabs (script_dir e) = true →
  node_at e (py "README.md") = Some n →
  node_at e (readme_beside_script e) = None →
  cwd e ≠ script_dir e ∧
  os_path_exists e (py "README.md") = true ∧
  read e (py "README.md") = Raise FileNotFoundError ∧
  README e = Raise FileNotFoundError ∧
  setup_py e = Raise FileNotFoundError.
Proof.
  intros Habs Hcwd Hscript.
  assert (Hex : os_path_exists e (py "README.md") = true).
  { unfold os_path_exists. rewrite Hcwd. now apply bool_decide_eq_true_2. }
  assert (Hread : read e (py "README.md") = Raise FileNotFoundError).
  { unfold read, io_open. fold (readme_beside_script e). now rewrite Hscript. }
  assert (Hr : README e = Raise FileNotFoundError).
  { unfold README. now rewrite Hex. }
  repeat split; auto using setup_py_raises_README.
  intros Heq. unfold readme_beside_script in Hscript.
  rewrite node_at_beside_script in Hscript by (congruence).
  congruence.
Qed.

Lemma README_only_in_cwd_witness :
  cwd elsewhere ≠ script_dir elsewhere ∧
  os_path_exists elsewhere (py "README.md") = true ∧
  read elsewhere (py "README.md") = Raise FileNotFoundError ∧
  README elsewhere = Raise FileNotFoundError ∧
  setup_py elsewhere = Raise FileNotFoundError.
Proof.
  apply (README_only_in_cwd elsewhere (File (py "Notes"))); reflexivity.
Defined.

(** ** Sample runs, evaluated *)

Example strip_keeps_inner_space :
  strip (py "  flask >= 2.3.0 " ++ [LF]) = py "flask >= 2.3.0".
Proof. reflexivity. Qed.

Example strip_ideographic_space : strip (12288%N :: py "celery") = py "celery".
Proof. reflexivity. Qed.

Example readlines_last_line_unterminated :
  readlines (py "a" ++ [LF] ++ py "b") = [py "a" ++ [LF]; py "b"].
Proof. reflexivity. Qed.

Example universal_newlines_mixed :
  universal_newlines (py "a" ++ [CR; LF] ++ py "b" ++ [CR] ++ py "c" ++ [LF])
  = nl [py "a"; py "b"; py "c"].
Proof. reflexivity. Qed.

Example get_requirements_at_home :
  get_requirements at_home =
    Ok [py "flask>=2.3.0  # web framework"; py "celery>=5.3.0"].
Proof. reflexivity. Qed.

Example spec_requirements_at_home :
  spec_requirements requirements_txt =
    [py "flask>=2.3.0  # web framework"; py "celery>=5.3.0"].
Proof. reflexivity. Qed.

Example get_requirements_bare : get_requirements bare = Ok fallback_requirements.
Proof. reflexivity. Qed.

Example get_requirements_undecodable :
  get_requirements
    {| cwd := py "/proj"; script_dir := py "/proj";
       fs := {[ py "/proj/requirements.txt" := Binary ]};
       found_packages := [] |}
  = Raise UnicodeDecodeError.
Proof. reflexivity. Qed.

Example README_at_home : README at_home = Ok (nl [py "# Refunds"; py "Service."]).
Proof. reflexivity. Qed.

Example install_requires_bare :
  ∃ kw, setup_py bare = Ok kw ∧ install_requires kw = fallback_requirements.
Proof. eexists. split; reflexivity. Qed.

(** * Further properties *)

(** ** More on strings and lines *)

Section MoreLines.

Implicit Types (s x l r : str) (c d : char) (ls : list str).

Local Abbreviation keep := (fun x : str => truthy x && negb (startswith HASH x)).
Local Abbreviation kept ls := (List.filter keep (map strip ls)).

(** Induction two characters at a time. *)
Lemma str_ind2 (P : str → Prop) :
  P [] → (∀ c, P [c]) → (∀ c d r, P r → P (d :: r) → P (c :: d :: r)) →
  ∀ s, P s.
Proof.
  intros H0 H1 H2 s.
  assert (H : P s ∧ ∀ c, P (c :: s)); [|tauto].
  induction s as [|d r [IHr IHc]]; split; auto.
Qed.

Lemma forallb_lstrip (p : char → bool) s :
  forallb p s = true → forallb p (lstrip s) = true.
Proof.
  induction s as [|c s IH]; simpl; [auto|].
  intros H. apply andb_true_iff in H as [Hc Hs].
  destruct (isspace c); [auto|]. simpl. now rewrite Hc, Hs.
Qed.

Lemma forallb_rstrip (p : char → bool) s :
  forallb p s = true → forallb p (rstrip s) = true.
Proof.
  induction s as [|c s IH]; simpl; [auto|].
  intros H. apply andb_true_iff in H as [Hc Hs]. specialize (IH Hs).
  destruct (rstrip s) as [|y r].
  - destruct (isspace c); simpl; [reflexivity|]. now rewrite Hc.
  - change (forallb p (c :: y :: r)) with (p c && forallb p (y :: r)).
    now rewrite Hc, IH.
Qed.

Lemma forallb_strip (p : char → bool) s :
  forallb p s = true → forallb p (strip s) = true.
Proof. intros H. now apply forallb_rstrip, forallb_lstrip. Qed.

(** A string without whitespace at either end is left as it is. *)
Lemma rstrip_fixed x :
  (∀ c, last x = Some c → isspace c = false) → rstrip x = x.
Proof.
  induction x as [|c x IH]; simpl; [reflexivity|]. intros H.
  destruct x as [|d x].
  - simpl. now rewrite (H c eq_refl).
  - rewrite IH by (intros c' Hc'; apply H; exact Hc'). reflexivity.
Qed.

Lemma strip_fixed x : no_space_around x → strip x = x.
Proof.
  intros [Hh Hl]. unfold strip.
  destruct x as [|c x]; [reflexivity|].
  simpl lstrip. rewrite (Hh c eq_refl). now apply rstrip_fixed.
Qed.

Lemma strip_strip s : strip (strip s) = strip s.
Proof. apply strip_fixed, strip_no_space_around. Qed.

(** Padding around a line does not show in what it strips to. *)
Lemma lstrip_padding p x : forallb isspace p = true → lstrip (p ++ x) = lstrip x.
Proof.
  induction p as [|c p IH]; simpl; [reflexivity|].
  intros H. apply andb_true_iff in H as [-> Hp]. auto.
Qed.

Lemma strip_padding_r p x : forallb isspace p = true → strip (x ++ p) = strip x.
Proof.
  revert x. induction p as [|c p IH] using rev_ind; intros x H.
  - now rewrite app_nil_r.
  - rewrite forallb_app in H. apply andb_true_iff in H as [Hp Hc].
    simpl in Hc. rewrite andb_true_r in Hc.
    rewrite app_assoc, strip_app_space by exact Hc. now apply IH.
Qed.

Lemma strip_padding p q x :
  forallb isspace p = true → forallb isspace q = true →
  strip (p ++ x ++ q) = strip x.
Proof.
  intros Hp Hq. rewrite <- (strip_padding_r q x Hq).
  unfold strip. now rewrite lstrip_padding.
Qed.

(** Text without CR passes through the newline translation unchanged, and
    what comes out of the translation holds no CR. *)
Lemma universal_newlines_fixed s :
  forallb (fun c => negb (c =? CR)%N) s = true → universal_newlines s = s.
Proof.
  induction s as [|c s IH]; simpl; [reflexivity|].
  intros H. apply andb_true_iff in H as [Hc Hs].
  apply negb_true_iff in Hc. rewrite Hc. now rewrite IH.
Qed.

Lemma universal_newlines_no_CR s :
  forallb (fun c => negb (c =? CR)%N) (universal_newlines s) = true.
Proof.
  induction s as [|c|c d r IHr IHd] using str_ind2.
  - reflexivity.
  - simpl. destruct (c =? CR)%N eqn:Hc; simpl; [reflexivity|]. now rewrite Hc.
  - change (universal_newlines (c :: d :: r))
      with (if (c =? CR)%N
            then LF :: (if (d =? LF)%N then universal_newlines r
                        else universal_newlines (d :: r))
            else c :: universal_newlines (d :: r)).
    destruct (c =? CR)%N eqn:Hc.
    + destruct (d =? LF)%N; simpl; [exact IHr | exact IHd].
    + change (negb (c =? CR)%N && forallb (fun c => negb (c =? CR)%N)
                (universal_newlines (d :: r)) = true).
      now rewrite Hc, IHd.
Qed.

(** Every line of a text is one line. *)
Lemma text_lines_one_line s : forallb one_line (text_lines s) = true.
Proof.
  induction s as [|c|c d r IHr IHd] using str_ind2.
  - reflexivity.
  - simpl. destruct (c =? LF)%N eqn:Hlf; [reflexivity|].
    destruct (c =? CR)%N eqn:Hcr; [reflexivity|].
    simpl. now rewrite Hlf, Hcr.
  - change (text_lines (c :: d :: r))
      with (if (c =? LF)%N then [] :: text_lines (d :: r)
            else if (c =? CR)%N
                 then [] :: (if (d =? LF)%N then text_lines r
                             else text_lines (d :: r))
                 else match text_lines (d :: r) with
                      | [] => [[c]]
                      | l :: ls => (c :: l) :: ls
                      end).
    destruct (c =? LF)%N eqn:Hlf; [exact IHd|].
    destruct (c =? CR)%N eqn:Hcr.
    + destruct (d =? LF)%N; [exact IHr | exact IHd].
    + destruct (text_lines (d :: r)) as [|l ls]; simpl in *.
      * now rewrite Hlf, Hcr.
      * now rewrite Hlf, Hcr.
Qed.

Lemma kept_one_line ls :
  forallb one_line ls = true → forallb one_line (kept ls) = true.
Proof.
  induction ls as [|l ls IH]; simpl; [auto|].
  intros H. apply andb_true_iff in H as [Hl Hls].
  destruct (truthy (strip l) && negb (startswith HASH (strip l))); simpl; auto.
  rewrite IH by exact Hls. unfold one_line at 1.
  now rewrite (forallb_strip _ l Hl).
Qed.

(** What the loop keeps, written one entry a line, is what the loop then
    finds. *)
Lemma kept_fixed ls : kept (kept ls) = kept ls.
Proof.
  induction ls as [|l ls IH]; simpl; [reflexivity|].
  destruct (truthy (strip l) && negb (startswith HASH (strip l))) eqn:H;
    [|exact IH].
  simpl. rewrite strip_strip, H. now rewrite IH.
Qed.

Lemma kept_with_LF ls : kept (map (fun l => l ++ [LF]) ls) = kept ls.
Proof.
  induction ls as [|l ls IH]; simpl; [reflexivity|].
  rewrite strip_app_space by reflexivity. now rewrite IH.
Qed.

Lemma readlines_line x rest :
  one_line x = true → readlines (x ++ LF :: rest) = (x ++ [LF]) :: readlines rest.
Proof.
  induction x as [|c x IH]; simpl; [reflexivity|].
  intros H. apply andb_true_iff in H as [Hc Hx].
  apply negb_true_iff, orb_false_iff in Hc as [Hlf _].
  rewrite Hlf. now rewrite IH.
Qed.

Lemma readlines_nl ls :
  forallb one_line ls = true → readlines (nl ls) = map (fun l => l ++ [LF]) ls.
Proof.
  unfold nl. induction ls as [|l ls IH]; simpl; [reflexivity|].
  intros H. apply andb_true_iff in H as [Hl Hls].
  rewrite <- app_assoc. simpl. rewrite readlines_line by exact Hl.
  now rewrite IH.
Qed.

Lemma nl_no_CR ls :
  forallb one_line ls = true →
  forallb (fun c => negb (c =? CR)%N) (nl ls) = true.
Proof.
  unfold nl. induction ls as [|l ls IH]; simpl; [reflexivity|].
  intros H. apply andb_true_iff in H as [Hl Hls].
  rewrite !forallb_app, IH by exact Hls. simpl.
  rewrite !andb_true_r. unfold one_line in Hl.
  clear -Hl. induction l as [|c l IHl]; simpl in *; [reflexivity|].
  apply andb_true_iff in Hl as [Hc Hl].
  apply negb_true_iff, orb_false_iff in Hc as [_ Hcr].
  now rewrite Hcr, IHl.
Qed.

(** The lines a file yields when its lines end in LF. *)
Lemma readlines_universal_nl ls :
  forallb one_line ls = true →
  readlines (universal_newlines (nl ls)) = map (fun l => l ++ [LF]) ls.
Proof.
  intros H. rewrite universal_newlines_fixed by now apply nl_no_CR.
  now apply readlines_nl.
Qed.

End MoreLines.

(** ** More on get_requirements *)

Section MoreRequirements.

Implicit Types (e : env) (content x l : str) (ls : list str).

Local Abbreviation keep := (fun x : str => truthy x && negb (startswith HASH x)).
Local Abbreviation kept ls := (List.filter keep (map strip ls)).

Lemma forallb_Forall {A} (p : A → bool) (xs : list A) :
  forallb p xs = true ↔ Forall (fun a => p a = true) xs.
Proof.
  induction xs as [|a xs IH]; simpl.
  - split; [constructor | reflexivity].
  - rewrite andb_true_iff, IH. split.
    + intros [Ha Hxs]. now constructor.
    + intros H. inversion H. tauto.
Qed.

Lemma requirements_are_parsed e content :
  requirements_are e content →
  get_requirements e = Ok (kept (text_lines content)).
Proof.
  intros H. rewrite (get_requirements_file e content H).
  now rewrite collect_kept, kept_readlines.
Qed.

(** The two things true of every list [get_requirements] returns: the loop
    would keep each entry as it is, and no entry spans lines. *)
Lemma get_requirements_shape e (rs : list str) :
  get_requirements e = Ok rs → kept rs = rs ∧ forallb one_line rs = true.
Proof.
  unfold get_requirements, io_open. fold (requirements_file e).
  destruct (node_at e (requirements_file e)) as [[| | |content]|]; simpl;
    try discriminate; try (intros [= <-]; split; reflexivity).
  rewrite collect_kept, kept_readlines. simpl. intros [= <-]. split.
  - apply kept_fixed.
  - apply kept_one_line, text_lines_one_line.
Qed.

Lemma requirements_are_nl e ls :
  forallb one_line ls = true → requirements_are e (nl ls) →
  get_requirements e = Ok (kept ls).
Proof.
  intros Hls H. rewrite (get_requirements_file e _ H).
  now rewrite collect_kept, readlines_universal_nl, kept_with_LF.
Qed.

Lemma kept_nil ls :
  kept ls = [] ↔ Forall (fun l => blank l = true ∨ comment_line l = true) ls.
Proof.
  induction ls as [|l ls IH]; simpl.
  - split; [constructor | reflexivity].
  - pose proof (keep_strip l) as Hk. simpl in Hk. rewrite Hk.
    destruct (blank l) eqn:Hb, (comment_line l) eqn:Hc; simpl;
      try (rewrite IH; split;
           [intros H; constructor; auto | intros H; now inversion H]).
    split; [discriminate|].
    intros H. inversion H as [|? ? Hd ?]. destruct Hd; congruence.
Qed.

Lemma universal_newlines_crlf_line x rest :
  one_line x = true →
  universal_newlines (x ++ CR :: LF :: rest) = x ++ LF :: universal_newlines rest.
Proof.
  induction x as [|c x IH]; simpl; [reflexivity|].
  intros H. apply andb_true_iff in H as [Hc Hx].
  apply negb_true_iff, orb_false_iff in Hc as [_ Hcr].
  rewrite Hcr. now rewrite IH.
Qed.

Lemma universal_newlines_cr_line x rest :
  one_line x = true → startswith LF rest = false →
  universal_newlines (x ++ CR :: rest) = x ++ LF :: universal_newlines rest.
Proof.
  intros Hx Hrest. induction x as [|c x IH]; simpl.
  - destruct rest as [|d rest]; [reflexivity|]. simpl in Hrest. now rewrite Hrest.
  - simpl in Hx. apply andb_true_iff in Hx as [Hc Hx].
    apply negb_true_iff, orb_false_iff in Hc as [_ Hcr].
    rewrite Hcr. now rewrite IH.
Qed.

Lemma universal_newlines_crlf ls :
  forallb one_line ls = true → universal_newlines (crlf ls) = nl ls.
Proof.
  unfold crlf, nl. induction ls as [|l ls IH]; simpl; [reflexivity|].
  intros H. apply andb_true_iff in H as [Hl Hls].
  rewrite <- !app_assoc. simpl.
  rewrite universal_newlines_crlf_line by exact Hl. now rewrite IH.
Qed.

Lemma cr_startswith ls : forallb one_line ls = true → startswith LF (cr ls) = false.
Proof.
  destruct ls as [|[|c l] ls]; simpl; try reflexivity.
  intros H. apply andb_true_iff in H as [H _]. apply andb_true_iff in H as [H _].
  now apply negb_true_iff, orb_false_iff in H as [H _].
Qed.

Lemma universal_newlines_cr ls :
  forallb one_line ls = true → universal_newlines (cr ls) = nl ls.
Proof.
  induction ls as [|l ls IH]; [reflexivity|].
  intros H. pose proof H as H'. simpl in H'. apply andb_true_iff in H' as [Hl Hls].
  unfold cr, nl. simpl. rewrite <- !app_assoc. simpl.
  fold (cr ls). fold (nl ls).
  rewrite universal_newlines_cr_line; [now rewrite IH | exact Hl |].
  now apply cr_startswith.
Qed.

End MoreRequirements.

(** X1. The list [get_requirements] returns, written to a requirements.txt
    one entry a line, is read back as the same list: from a file or from
    the hardcoded list, the result is a fixed point of the parser. *)
Theorem get_requirements_written_back (e e' : env) (rs : list str) :
  get_requirements e = Ok rs →
  requirements_are e' (nl rs) →
  get_requirements e' = Ok rs.
Proof.
  intros H H'. apply get_requirements_shape in H as [Hk Hl].
  rewrite (requirements_are_nl e' rs Hl H'). now rewrite Hk.
Qed.

Lemma get_requirements_written_back_witness :
  get_requirements
    {| cwd := py "/tmp"; script_dir := py "/copy";
       fs := {[ py "/copy/requirements.txt" :=
                  File (nl [py "flask>=2.3.0  # web framework"; py "celery>=5.3.0"]) ]};
       found_packages := [] |}
  = Ok [py "flask>=2.3.0  # web framework"; py "celery>=5.3.0"].
Proof.
  apply (get_requirements_written_back at_home); reflexivity.
Defined.

(** X2. No entry of the list [get_requirements] returns holds a line
    terminator, whichever path produced the list. *)
Theorem get_requirements_one_line (e : env) (rs : list str) :
  get_requirements e = Ok rs → Forall (fun x => one_line x = true) rs.
Proof.
  intros H. apply forallb_Forall. now apply get_requirements_shape in H.
Qed.

Lemma get_requirements_one_line_witness :
  Forall (fun x => one_line x = true)
         [py "flask>=2.3.0  # web framework"; py "celery>=5.3.0"].
Proof. apply (get_requirements_one_line at_home). reflexivity. Defined.

(** The result is the empty list exactly when every line of the file is
    blank or a comment, an empty file included. *)
Lemma get_requirements_empty (e : env) (content : str) :
  requirements_are e content →
  (get_requirements e = Ok [] ↔
   Forall (fun l => blank l = true ∨ comment_line l = true) (text_lines content)).
Proof.
  intros H. rewrite (requirements_are_parsed e content H).
  rewrite <- kept_nil. split; [now intros [= ->] | now intros ->].
Qed.

Lemma get_requirements_empty_witness :
  get_requirements
    {| cwd := py "/proj"; script_dir := py "/proj";
       fs := {[ py "/proj/requirements.txt" :=
                  File (nl [py "# nothing yet"; py "  "]) ]};
       found_packages := [] |}
  = Ok [].
Proof.
  apply (get_requirements_empty _ (nl [py "# nothing yet"; py "  "]));
    [reflexivity|].
  repeat constructor; (left; reflexivity) || (right; reflexivity).
Defined.

(** X4. Line ends do not matter: the same lines ended by CR LF, or by CR,
    give the list they give when ended by LF. *)
Theorem get_requirements_line_ends (e e' : env) (ls : list str) :
  Forall (fun l => one_line l = true) ls →
  requirements_are e (nl ls) →
  requirements_are e' (crlf ls) ∨ requirements_are e' (cr ls) →
  get_requirements e' = get_requirements e.
Proof.
  intros Hls H H'. apply forallb_Forall in Hls.
  rewrite (get_requirements_file e _ H).
  rewrite (universal_newlines_fixed (nl ls)) by now apply nl_no_CR.
  destruct H' as [H'|H']; rewrite (get_requirements_file e' _ H').
  - now rewrite universal_newlines_crlf.
  - now rewrite universal_newlines_cr.
Qed.

Lemma get_requirements_line_ends_witness :
  get_requirements
    {| cwd := py "/proj"; script_dir := py "/proj";
       fs := {[ py "/proj/requirements.txt" :=
                  File (crlf [ py "# runtime dependencies";
                               py "flask>=2.3.0  # web framework";
                               py "   ";
                               py "  celery>=5.3.0" ]) ]};
       found_packages := [] |}
  = get_requirements at_home.
Proof.
  apply (get_requirements_line_ends at_home _
           [ py "# runtime dependencies";
             py "flask>=2.3.0  # web framework";
             py "   ";
             py "  celery>=5.3.0" ]).
  - repeat constructor.
  - reflexivity.
  - left. reflexivity.
Defined.

(** X5. Blanks and tabs before and after the lines do not matter: lines
    [p ++ x ++ q] with padding [p] and [q] give the list the lines [x]
    give. *)
Theorem get_requirements_padding (e e' : env) (t : list (str * str * str)) :
  Forall (fun '(p, x, q) =>
            padding p = true ∧ one_line x = true ∧ padding q = true) t →
  requirements_are e (nl (map (fun '(p, x, q) => x) t)) →
  requirements_are e' (nl (map (fun '(p, x, q) => p ++ x ++ q) t)) →
  get_requirements e' = get_requirements e.
Proof.
  intros Ht H H'.
  assert (Hpad : ∀ p, padding p = true →
            forallb isspace p = true ∧ one_line p = true).
  { intros p. unfold padding, one_line.
    induction p as [|c p IH]; simpl; [auto|].
    intros Hp. apply andb_true_iff in Hp as [Hc Hp].
    apply andb_true_iff in Hc as [-> ->]. auto. }
  assert (Happ : ∀ a b, one_line a = true → one_line b = true →
            one_line (a ++ b) = true).
  { intros a b Ha Hb. unfold one_line in *. now rewrite forallb_app, Ha, Hb. }
  assert (Hx : forallb one_line (map (fun '(p, x, q) => x) t) = true).
  { clear H H'. induction Ht as [|[[p x] q] t (Hp & Hx & Hq) Ht IH]; simpl;
      [reflexivity|]. now rewrite Hx, IH. }
  assert (Hpxq : forallb one_line (map (fun '(p, x, q) => p ++ x ++ q) t) = true).
  { clear H H' Hx. induction Ht as [|[[p x] q] t (Hp & Hx & Hq) Ht IH]; simpl;
      [reflexivity|].
    apply Hpad in Hp as [_ Hp], Hq as [_ Hq].
    rewrite IH, andb_true_r. auto. }
  rewrite (requirements_are_nl e _ Hx H), (requirements_are_nl e' _ Hpxq H').
  f_equal. clear H H' Hx Hpxq.
  induction Ht as [|[[p x] q] t (Hp & Hx & Hq) Ht IH]; simpl; [reflexivity|].
  apply Hpad in Hp as [Hp _], Hq as [Hq _].
  rewrite (strip_padding p q x Hp Hq). simpl in IH. now rewrite IH.
Qed.

Lemma get_requirements_padding_witness :
  get_requirements at_home =
  get_requirements
    {| cwd := py "/proj"; script_dir := py "/proj";
       fs := {[ py "/proj/requirements.txt" :=
                  File (nl [ py "# runtime dependencies";
                             py "flask>=2.3.0  # web framework";
                             py "";
                             py "celery>=5.3.0" ]) ]};
       found_packages := [] |}.
Proof.
  apply (get_requirements_padding _ at_home
           [ ([], py "# runtime dependencies", []);
             ([], py "flask>=2.3.0  # web framework", []);
             (py "   ", [], []);
             (py "  ", py "celery>=5.3.0", []) ]).
  - repeat constructor.
  - reflexivity.
  - reflexivity.
Defined.

(** ** More on read, README and the script *)

Section MoreScript.

Implicit Types (e : env) (s t : str) (c d : char) (kw : setup_kwargs).

(** The newline translation changes line ends only: the lines stay, and
    the text does not grow. *)
Lemma text_lines_universal_newlines s :
  text_lines (universal_newlines s) = text_lines s.
Proof.
  induction s as [|c|c d r IHr IHd] using str_ind2.
  - reflexivity.
  - simpl. destruct (c =? CR)%N eqn:Hcr.
    + apply N.eqb_eq in Hcr. now subst c.
    + simpl. now rewrite Hcr.
  - change (universal_newlines (c :: d :: r))
      with (if (c =? CR)%N
            then LF :: (if (d =? LF)%N then universal_newlines r
                        else universal_newlines (d :: r))
            else c :: universal_newlines (d :: r)).
    change (text_lines (c :: d :: r))
      with (if (c =? LF)%N then [] :: text_lines (d :: r)
            else if (c =? CR)%N
                 then [] :: (if (d =? LF)%N then text_lines r
                             else text_lines (d :: r))
                 else match text_lines (d :: r) with
                      | [] => [[c]]
                      | l :: ls => (c :: l) :: ls
                      end).
    destruct (c =? CR)%N eqn:Hcr.
    + apply N.eqb_eq in Hcr. subst c.
      change (CR =? LF)%N with false. cbv iota.
      destruct (d =? LF)%N.
      * change (text_lines (LF :: universal_newlines r))
          with ([] :: text_lines (universal_newlines r)).
        now rewrite IHr.
      * change (text_lines (LF :: universal_newlines (d :: r)))
          with ([] :: text_lines (universal_newlines (d :: r))).
        now rewrite IHd.
    + change (text_lines (c :: universal_newlines (d :: r)))
        with (if (c =? LF)%N then [] :: text_lines (universal_newlines (d :: r))
              else if (c =? CR)%N
                   then [] :: match universal_newlines (d :: r) with
                              | [] => [[]]
                              | d' :: r' =>
                                  if (d' =? LF)%N then text_lines r'
                                  else text_lines (universal_newlines (d :: r))
                              end
                   else match text_lines (universal_newlines (d :: r)) with
                        | [] => [[c]]
                        | l :: ls => (c :: l) :: ls
                        end).
      rewrite Hcr, IHd. reflexivity.
Qed.

Lemma universal_newlines_length s :
  length (universal_newlines s) ≤ length s.
Proof.
  induction s as [|c|c d r IHr IHd] using str_ind2.
  - reflexivity.
  - simpl. now destruct (c =? CR)%N.
  - change (universal_newlines (c :: d :: r))
      with (if (c =? CR)%N
            then LF :: (if (d =? LF)%N then universal_newlines r
                        else universal_newlines (d :: r))
            else c :: universal_newlines (d :: r)).
    destruct (c =? CR)%N, (d =? LF)%N; simpl in *; lia.
Qed.

Lemma README_cases e :
  README e = match node_at e (py "README.md") with
             | None => Ok []
             | Some _ => read e (py "README.md")
             end.
Proof.
  unfold README, os_path_exists.
  destruct (node_at e (py "README.md")) as [n|].
  - rewrite bool_decide_eq_true_2; [reflexivity | now exists n].
  - rewrite bool_decide_eq_false_2; [reflexivity | now intros [x Hx]].
Qed.

Lemma read_cases e filename :
  read e filename =
    match node_at e (os_path_join (script_dir e) filename) with
    | None => Raise FileNotFoundError
    | Some Dir => Raise IsADirectoryError
    | Some Locked => Raise PermissionError
    | Some Binary => Raise UnicodeDecodeError
    | Some (File s) => Ok (universal_newlines s)
    end.
Proof.
  unfold read, io_open.
  now destruct (node_at e (os_path_join (script_dir e) filename)) as [[| | |s]|].
Qed.

Lemma get_requirements_cases e :
  get_requirements e =
    match node_at e (requirements_file e) with
    | Some Binary => Raise UnicodeDecodeError
    | Some (File content) => Ok (spec_requirements content)
    | _ => Ok fallback_requirements
    end.
Proof.
  destruct (node_at e (requirements_file e)) as [[| | |content]|] eqn:H;
    try (unfold get_requirements, io_open; fold (requirements_file e);
         now rewrite H).
  rewrite (requirements_are_parsed e content H).
  now rewrite spec_requirements_kept.
Qed.

Lemma setup_py_raises e (err : exc) :
  setup_py e = Raise err ↔
  README e = Raise err ∨
  (returns (README e) = true ∧ get_requirements e = Raise err).
Proof.
  unfold setup_py, REQUIREMENTS.
  destruct (README e) as [readme|c1]; simpl;
    [destruct (get_requirements e) as [rs|c2]; simpl|].
  - split; [discriminate | intros [H|[_ H]]; discriminate].
  - split; [intros [= <-]; auto | intros [H|[_ H]]; [discriminate | congruence]].
  - split; [intros [= <-]; auto | intros [H|[H _]]; [congruence | discriminate]].
Qed.

(** Where a text line ends up when more text follows after an LF. *)
Lemma text_lines_app_LF s t :
  ∃ init final,
    text_lines s = init ++ [final] ∧
    (text_lines (s ++ LF :: t) = init ++ final :: text_lines t ∨
     (final = [] ∧ init ≠ [] ∧
      text_lines (s ++ LF :: t) = init ++ text_lines t)).
Proof.
  induction s as [|c|c d r IHr IHd] using str_ind2.
  - exists [], []. auto.
  - simpl. destruct (c =? LF)%N eqn:Hlf; [exists [[]], []; auto|].
    destruct (c =? CR)%N eqn:Hcr.
    + exists [[]], []. split; [reflexivity|]. right. now repeat split.
    + exists [], [c]. auto.
  - change ((c :: d :: r) ++ LF :: t) with (c :: d :: (r ++ LF :: t)).
    change (text_lines (c :: d :: r))
      with (if (c =? LF)%N then [] :: text_lines (d :: r)
            else if (c =? CR)%N
                 then [] :: (if (d =? LF)%N then text_lines r
                             else text_lines (d :: r))
                 else match text_lines (d :: r) with
                      | [] => [[c]]
                      | l :: ls => (c :: l) :: ls
                      end).
    change (text_lines (c :: d :: (r ++ LF :: t)))
      with (if (c =? LF)%N then [] :: text_lines ((d :: r) ++ LF :: t)
            else if (c =? CR)%N
                 then [] :: (if (d =? LF)%N then text_lines (r ++ LF :: t)
                             else text_lines ((d :: r) ++ LF :: t))
                 else match text_lines ((d :: r) ++ LF :: t) with
                      | [] => [[c]]
                      | l :: ls => (c :: l) :: ls
                      end).
    assert (Hcons : ∀ u, (∃ init final,
              text_lines u = init ++ [final] ∧
              (text_lines (u ++ LF :: t) = init ++ final :: text_lines t ∨
               (final = [] ∧ init ≠ [] ∧
                text_lines (u ++ LF :: t) = init ++ text_lines t))) →
            ∃ init final,
              [] :: text_lines u = init ++ [final] ∧
              ([] :: text_lines (u ++ LF :: t) = init ++ final :: text_lines t ∨
               (final = [] ∧ init ≠ [] ∧
                [] :: text_lines (u ++ LF :: t) = init ++ text_lines t))).
    { intros u (init & final & -> & [-> | (Hf & _ & ->)]);
        exists ([] :: init), final; split; auto; right; now repeat split. }
    destruct (c =? LF)%N eqn:Hlf; [now apply Hcons|].
    destruct (c =? CR)%N eqn:Hcr; [destruct (d =? LF)%N; now apply Hcons|].
    destruct IHd as (init & final & Ht & Hd). rewrite Ht.
    destruct Hd as [Hd | (Hf & Hne & Hd)]; rewrite Hd.
    + destruct init as [|i init].
      * exists [], (c :: final). auto.
      * exists ((c :: i) :: init), final. auto.
    + destruct init as [|i init]; [now destruct Hne|].
      exists ((c :: i) :: init), final. split; [reflexivity|].
      right. now repeat split.
Qed.

End MoreScript.

(** X6. Joining further text after a line end joins the lists: the file
    [a], an LF, then the file [b] gives the entries of [a] followed by
    the entries of [b], whether or not [a] ends its last line. *)
Theorem get_requirements_concat (ea eb e : env) (a b : str) :
  requirements_are ea a →
  requirements_are eb b →
  requirements_are e (a ++ LF :: b) →
  ∃ ra rb, get_requirements ea = Ok ra ∧
           get_requirements eb = Ok rb ∧
           get_requirements e = Ok (ra ++ rb).
Proof.
  intros Ha Hb H.
  rewrite (requirements_are_parsed ea a Ha), (requirements_are_parsed eb b Hb),
    (requirements_are_parsed e _ H).
  eexists _, _. split; [reflexivity|]. split; [reflexivity|]. f_equal.
  destruct (text_lines_app_LF a b) as (init & final & -> & [-> | (-> & _ & ->)]);
    rewrite !map_app, !List.filter_app; simpl.
  - destruct (truthy (strip final) && negb (startswith HASH (strip final)));
      simpl; [|now rewrite app_nil_r].
    now rewrite <- app_assoc.
  - now rewrite app_nil_r.
Qed.

Lemma get_requirements_concat_witness :
  ∃ ra rb,
    get_requirements
      {| cwd := py "/a"; script_dir := py "/a";
         fs := {[ py "/a/requirements.txt" := File (py "flask>=2.3.0") ]};
         found_packages := [] |} = Ok ra ∧
    get_requirements
      {| cwd := py "/b"; script_dir := py "/b";
         fs := {[ py "/b/requirements.txt" := File (nl [py "# queue"; py "celery>=5.3.0"]) ]};
         found_packages := [] |} = Ok rb ∧
    get_requirements
      {| cwd := py "/c"; script_dir := py "/c";
         fs := {[ py "/c/requirements.txt" :=
                    File (py "flask>=2.3.0" ++ LF :: nl [py "# queue"; py "celery>=5.3.0"]) ]};
         found_packages := [] |} = Ok (ra ++ rb).
Proof.
  apply (get_requirements_concat _ _ _ (py "flask>=2.3.0")
           (nl [py "# queue"; py "celery>=5.3.0"])); reflexivity.
Defined.

(** X7. With the script directory absolute, neither [get_requirements] nor
    [read] depends on the directory the run is started from. *)
Theorem helpers_from_any_directory (e : env) (d filename : str) :
  os_path_isabs (script_dir e) = true →
  get_requirements (run_from d e) = get_requirements e ∧
  read (run_from d e) filename = read e filename.
Proof.
  intros Habs.
  assert (H : ∀ f, node_at (run_from d e) (os_path_join (script_dir e) f)
                   = node_at e (os_path_join (script_dir e) f)).
  { intros f. unfold node_at.
    now rewrite !resolve_isabs by now apply os_path_join_isabs. }
  split.
  - unfold get_requirements, io_open. simpl script_dir. now rewrite H.
  - unfold read, io_open. simpl script_dir. now rewrite H.
Qed.

Lemma helpers_from_any_directory_witness :
  get_requirements (run_from (py "/work") at_home) = get_requirements at_home ∧
  read (run_from (py "/work") at_home) (py "README.md") = read at_home (py "README.md").
Proof. apply (helpers_from_any_directory at_home). reflexivity. Defined.

(** X9. What [read] returns for a text file: a text without CR, not longer
    than the file's, with the same lines, and the file's own text when
    that holds no CR. *)
Theorem read_text (e : env) (filename s : str) :
  node_at e (os_path_join (script_dir e) filename) = Some (File s) →
  ∃ t, read e filename = Ok t ∧
       Forall (fun c => c ≠ CR) t ∧
       text_lines t = text_lines s ∧
       length t ≤ length s ∧
       (Forall (fun c => c ≠ CR) s → t = s).
Proof.
  intros H. exists (universal_newlines s).
  assert (Hne : ∀ u, forallb (fun c => negb (c =? CR)%N) u = true ↔
                     Forall (fun c => c ≠ CR) u).
  { intros u. rewrite forallb_Forall. apply Forall_iff. intros c.
    rewrite negb_true_iff. apply N.eqb_neq. }
  split; [now rewrite read_cases, H|].
  split; [apply Hne, universal_newlines_no_CR|].
  split; [apply text_lines_universal_newlines|].
  split; [apply universal_newlines_length|].
  intros Hs. now apply universal_newlines_fixed, Hne.
Qed.

Lemma read_text_witness :
  ∃ t, read dos_readme (py "README.md") = Ok t ∧
       Forall (fun c => c ≠ CR) t ∧
       text_lines t = text_lines (crlf [py "Refunds"]) ∧
       length t ≤ length (crlf [py "Refunds"]) ∧
       (Forall (fun c => c ≠ CR) (crlf [py "Refunds"]) → t = crlf [py "Refunds"]).
Proof. apply (read_text dos_readme). reflexivity. Defined.

(** X10. With no README.md in the current working directory, the long
    description is the empty string, whatever lies beside the script: a
    README.md there is not looked at. *)
Theorem README_not_in_cwd (e : env) (kw : setup_kwargs) :
  node_at e (py "README.md") = None →
  setup_py e = Ok kw →
  README e = Ok [] ∧ long_description kw = [].
Proof.
  intros H Hkw.
  assert (Hr : README e = Ok []) by now rewrite README_cases, H.
  split; [exact Hr|].
  apply setup_py_inv in Hkw as [Hl _]. congruence.
Qed.

Lemma README_not_in_cwd_witness :
  ∃ kw,
    setup_py beside_only = Ok kw ∧
    node_at beside_only (readme_beside_script beside_only)
      = Some (File (py "Refunds")) ∧
    README beside_only = Ok [] ∧
    long_description kw = [].
Proof.
  eexists. split; [reflexivity|]. split; [reflexivity|].
  apply (README_not_in_cwd beside_only); reflexivity.
Defined.

(** X11. The call of [setup] is reached exactly when README.md is absent
    from the current working directory or README.md beside the script is
    a text file, and requirements.txt beside the script is not a file
    that fails to decode. *)
Theorem setup_py_returns (e : env) :
  returns (setup_py e) = true ↔
  (node_at e (py "README.md") = None ∨
   ∃ s, node_at e (readme_beside_script e) = Some (File s)) ∧
  node_at e (requirements_file e) ≠ Some Binary.
Proof.
  unfold setup_py, REQUIREMENTS.
  rewrite README_cases, read_cases, get_requirements_cases.
  fold (readme_beside_script e).
  destruct (node_at e (py "README.md")) as [n|];
    destruct (node_at e (readme_beside_script e)) as [[| | |s]|];
    destruct (node_at e (requirements_file e)) as [[| | |content]|];
    simpl; split;
    try discriminate; try reflexivity;
    try (intros _; split; [eauto | discriminate]);
    try (intros [[H|[s' H]] H']; congruence).
Qed.

(** X12. The script stops with an exception exactly when the README
    assignment raises it, or README is bound and requirements.txt fails to
    decode. The exception of README comes first, and a requirements.txt
    that is missing or cannot be opened never stops the script. *)
Theorem setup_py_stops (e : env) (err : exc) :
  setup_py e = Raise err ↔
  README e = Raise err ∨
  (returns (README e) = true ∧ err = UnicodeDecodeError ∧
   node_at e (requirements_file e) = Some Binary).
Proof.
  rewrite setup_py_raises, get_requirements_cases.
  destruct (node_at e (requirements_file e)) as [[| | |content]|];
    split; intros [H|(Hr & H)]; auto;
    try discriminate; try (destruct H; discriminate).
  - injection H as <-. auto.
  - destruct H as [-> _]. auto.
Qed.

(** X13. In a run that reaches the call of [setup], the packages are those
    found, and the requirements to install are the entries of
    requirements.txt beside the script when it is a text file, the
    hardcoded list otherwise. *)
Theorem setup_py_install_requires (e : env) (kw : setup_kwargs) :
  setup_py e = Ok kw →
  packages kw = found_packages e ∧
  install_requires kw =
    match node_at e (requirements_file e) with
    | Some (File content) => spec_requirements content
    | _ => fallback_requirements
    end.
Proof.
  intros H. pose proof (setup_py_inv e kw H) as [_ Hr].
  split.
  - revert H. unfold setup_py.
    destruct (README e); simpl; [|discriminate].
    destruct (REQUIREMENTS e); simpl; [|discriminate].
    now intros [= <-].
  - rewrite get_requirements_cases in Hr.
    destruct (node_at e (requirements_file e)) as [[| | |content]|];
      congruence.
Qed.

Lemma setup_py_install_requires_witness :
  ∃ kw, setup_py at_home = Ok kw ∧
        packages kw = [py "backend"] ∧
        install_requires kw = spec_requirements requirements_txt.
Proof.
  eexists. split; [reflexivity|].
  apply (setup_py_install_requires at_home). reflexivity.
Defined.

(** ** The results, said without [strip] *)

Section Stripped.

Implicit Types (l x p q : str) (ls xs : list str).

Lemma lstrip_split l : ∃ p, l = p ++ lstrip l ∧ forallb isspace p = true.
Proof.
  induction l as [|c l (p & Hl & Hp)]; simpl.
  - now exists [].
  - destruct (isspace c) eqn:Hc.
    + exists (c :: p). simpl. rewrite Hc, Hp. split; [now f_equal | reflexivity].
    + now exists [].
Qed.

Lemma rstrip_split l : ∃ q, l = rstrip l ++ q ∧ forallb isspace q = true.
Proof.
  induction l as [|c l (q & Hl & Hq)]; simpl.
  - now exists [].
  - destruct (rstrip l) as [|y r].
    + simpl in Hl. subst q. destruct (isspace c) eqn:Hc.
      * exists (c :: l). simpl. now rewrite Hc, Hq.
      * now exists l.
    + exists q. split; [|exact Hq]. simpl. now f_equal.
Qed.

Lemma stripped_of_strip l : stripped_of l (strip l).
Proof.
  destruct (lstrip_split l) as (p & Hl & Hp).
  destruct (rstrip_split (lstrip l)) as (q & Hr & Hq).
  exists p, q. unfold strip. repeat split; auto; try apply strip_no_space_around.
  now rewrite <- Hr.
Qed.

Lemma stripped_of_unique l x : stripped_of l x → x = strip l.
Proof.
  intros (p & q & -> & Hp & Hq & Hx).
  now rewrite (strip_padding p q x Hp Hq), (strip_fixed x Hx).
Qed.

Lemma stripped_of_all ls xs : Forall2 stripped_of ls xs → xs = map strip ls.
Proof.
  induction 1 as [|l x ls xs Hx _ IH]; simpl; [reflexivity|].
  now rewrite (stripped_of_unique l x Hx), IH.
Qed.

Lemma stripped_of_map ls : Forall2 stripped_of ls (map strip ls).
Proof.
  induction ls as [|l ls IH]; simpl; constructor; auto using stripped_of_strip.
Qed.

Lemma wanted_keep x : wanted x = truthy x && negb (startswith HASH x).
Proof.
  unfold wanted. destruct x as [|c x]; [reflexivity|]. simpl.
  destruct (c =? HASH)%N eqn:Hc.
  - apply N.eqb_eq in Hc. subst c. now rewrite bool_decide_eq_true_2.
  - apply N.eqb_neq in Hc. rewrite bool_decide_eq_false_2; [reflexivity|].
    now intros [= ->].
Qed.

Lemma first_visible_lstrip l : first_visible l = head (lstrip l).
Proof.
  unfold first_visible. induction l as [|c l IH]; simpl; [reflexivity|].
  now destruct (isspace c).
Qed.

Lemma first_visible_blank l : first_visible l = None ↔ blank l = true.
Proof.
  rewrite first_visible_lstrip. unfold blank. rewrite <- lstrip_nil.
  destruct (lstrip l); simpl; split; congruence.
Qed.

Lemma first_visible_comment l :
  first_visible l = Some HASH ↔ comment_line l = true.
Proof.
  rewrite first_visible_lstrip. unfold comment_line, startswith.
  destruct (lstrip l) as [|c r]; simpl; [split; discriminate|].
  rewrite N.eqb_eq. split; congruence.
Qed.

Lemma requirements_are_wanted e content :
  node_at e (requirements_file e) = Some (File content) →
  get_requirements e = Ok (List.filter wanted (map strip (text_lines content))).
Proof.
  intros H. rewrite (requirements_are_parsed e content H). f_equal.
  apply List.filter_ext. intros x. now rewrite wanted_keep.
Qed.

End Stripped.

(** Closes [stripped_of line x] for a given line, entry and padding. *)
Ltac stripped_by p q :=
  exists p, q; split; [reflexivity|]; split; [reflexivity|];
  split; [reflexivity|];
  split; intros c H; vm_compute in H;
  try discriminate H; injection H as <-; reflexivity.

(** C1. When requirements.txt beside the script is a readable text file,
    [get_requirements] returns the lines of that file that are non-empty
    and are not comments, in file order, each without its leading and
    trailing whitespace. Taking whitespace off is said here by what it
    leaves: every line has an entry that lies in it between two runs of
    whitespace and has none at either end, and the result is these
    entries, the empty ones and those begun by the comment sign left
    out. *)
Theorem get_requirements_stripped_lines (e : env) (content : str) :
  node_at e (requirements_file e) = Some (File content) →
  (∃ xs, Forall2 stripped_of (text_lines content) xs) ∧
  (∀ xs, Forall2 stripped_of (text_lines content) xs →
         get_requirements e = Ok (List.filter wanted xs)).
Proof.
  intros H. split.
  - exists (map strip (text_lines content)). apply stripped_of_map.
  - intros xs Hxs. rewrite (stripped_of_all _ _ Hxs).
    now apply requirements_are_wanted.
Qed.

Lemma get_requirements_stripped_lines_witness :
  get_requirements at_home =
    Ok [py "flask>=2.3.0  # web framework"; py "celery>=5.3.0"].
Proof.
  apply (proj2 (get_requirements_stripped_lines at_home requirements_txt eq_refl)
           [ py "# runtime dependencies";
             py "flask>=2.3.0  # web framework";
             [];
             py "celery>=5.3.0";
             [] ]).
  repeat apply Forall2_cons_2; [| | | | |apply Forall2_nil_2].
  - stripped_by (@nil N) (@nil N).
  - stripped_by (@nil N) (@nil N).
  - stripped_by (py "   ") (@nil N).
  - stripped_by (py "  ") (@nil N).
  - stripped_by (@nil N) (@nil N).
Defined.

(** C5. The fallback list [get_requirements] returns, when opening
    requirements.txt raises IOError or FileNotFoundError, is the fourteen
    runtime dependency floors of the specification, in its order, and
    nothing else. *)
Theorem get_requirements_fallback_floors (e : env) (c : exc) :
  io_open e (requirements_file e) = Raise c →
  issubclass c IOError = true ∨ issubclass c FileNotFoundError = true →
  ∃ rs, get_requirements e = Ok rs ∧ rs = runtime_floors ∧ length rs = 14.
Proof.
  intros H Hc. exists fallback_requirements.
  split; [|split; reflexivity].
  unfold get_requirements. fold (requirements_file e). rewrite H.
  unfold try_except, caught. simpl.
  now destruct Hc as [-> | ->]; rewrite ?orb_true_r.
Qed.

Lemma get_requirements_fallback_floors_witness :
  ∃ rs, get_requirements bare = Ok rs ∧ rs = runtime_floors ∧ length rs = 14.
Proof.
  apply (get_requirements_fallback_floors bare FileNotFoundError).
  - reflexivity.
  - right. reflexivity.
Defined.

(** X3. A requirements.txt that is there is never replaced by the
    hardcoded list: every entry returned is a line of the file without
    the whitespace around it, and the result is empty exactly when no line
    has a first visible character other than the comment sign, an empty
    file included. *)
Theorem get_requirements_from_file (e : env) (content : str) :
  requirements_are e content →
  ∃ rs, get_requirements e = Ok rs ∧
        Forall (fun x => ∃ line, In line (text_lines content) ∧
                                 stripped_of line x) rs ∧
        (rs = [] ↔
         Forall (fun l => first_visible l = None ∨ first_visible l = Some HASH)
                (text_lines content)).
Proof.
  intros H. eexists. split; [exact (requirements_are_wanted e content H)|].
  split.
  - apply Forall_forall. intros x Hx. apply list_elem_of_In in Hx.
    apply List.filter_In in Hx as [Hx _].
    apply List.in_map_iff in Hx as (line & <- & Hline).
    exists line. split; [exact Hline | apply stripped_of_strip].
  - pose proof (get_requirements_empty e content H) as Hempty.
    rewrite (requirements_are_wanted e content H) in Hempty.
    etransitivity; [|etransitivity; [exact Hempty|]].
    + split; [now intros -> | now intros [= ->]].
    + apply Forall_iff. intros l.
      now rewrite first_visible_blank, first_visible_comment.
Qed.

Lemma get_requirements_from_file_witness :
  ∃ rs, get_requirements at_home = Ok rs ∧
        Forall (fun x => ∃ line, In line (text_lines requirements_txt) ∧
                                 stripped_of line x) rs ∧
        (rs = [] ↔
         Forall (fun l => first_visible l = None ∨ first_visible l = Some HASH)
                (text_lines requirements_txt)).
Proof. apply (get_requirements_from_file at_home). reflexivity. Defined.


